(** * php-to-python-migration: the FastAPI scaffold, embedded and verified

    The repository is three Python modules:
    - [src/main.py]: builds the FastAPI application, installs the CORS
      middleware, declares [/health] and chooses the listening port;
    - [src/controllers/user_controller.py]: an [APIRouter] with five
      handlers for [/api/users];
    - [src/services/user_service.py]: the class [UserService] with five
      coroutine methods.

    Python values are an inductive type, a coroutine body is a computation
    in a state-and-exception monad (there is no suspension point in any
    body, so awaiting a coroutine is running it), the environment is a
    finite map from names to strings, and the parts of the web framework
    that the handlers' decorators rely on (route tables, path templates,
    the response-model check, the default exception handlers) are modelled
    next to them. *)

From Stdlib Require Import ZArith String Ascii List Bool Lia.
From stdpp Require Import base option list strings gmap pretty.

#[local] Set Warnings "-register-all".
Local Open Scope Z_scope.
Local Open Scope string_scope.

(** ** Python values and computations *)

Module Py.

(** The values that the three modules build or return. A dict keeps its
    insertion order, so it is an association list. *)
Inductive value : Type :=
| None_
| Bool (b : bool)
| Int (z : Z)
| Str (s : string)
| List (items : list value)
| Dict (items : list (string * value)).

(** The exceptions that can leave a handler or the start-up block. *)
Inductive exn : Type :=
| HTTPException (status_code : Z) (detail : string)
| ResponseValidationError
| ValueError (literal : string)
| TypeError.

Inductive outcome (A : Type) : Type :=
| Returned (a : A)
| Raised (e : exn).
Arguments Returned {A} a.
Arguments Raised {A} e.

(** A coroutine body over a process state [S]. *)
Definition M (S A : Type) : Type := S -> outcome A * S.

Definition ret {S A} (a : A) : M S A := fun s => (Returned a, s).
Definition raise {S A} (e : exn) : M S A := fun s => (Raised e, s).
Definition bind {S A B} (m : M S A) (k : A -> M S B) : M S B :=
  fun s => match m s with
           | (Returned a, s') => k a s'
           | (Raised e, s') => (Raised e, s')
           end.

(** [pass] as the whole body of a function: control falls off the end and
    the call evaluates to [None]. *)
Definition pass {S} : M S value := ret None_.

Definition result {S A} (m : M S A) (s : S) : outcome A := fst (m s).

Definition is_raised {A} (o : outcome A) : bool :=
  match o with Raised _ => true | Returned _ => false end.

(** A computation that gives the same answer in every state and leaves
    the state as it was. *)
Definition constant {S A} (f : S -> A * S) : Prop :=
  exists a, forall s, f s = (a, s).

(** Truthiness, as [bool(v)] computes it. *)
Definition truthy (v : value) : bool :=
  match v with
  | None_ => false
  | Bool b => b
  | Int z => negb (Z.eqb z 0%Z)
  | Str s => negb (String.eqb s "")
  | List l => negb (Nat.eqb (length l) 0)
  | Dict l => negb (Nat.eqb (length l) 0)
  end.

End Py.

(** ** services/user_service.py *)

Module UserService.
Import Py.

Section Methods.
(** [S] is the state of the process, [Self] the instance the method is
    called on, [UserCreate] and [UserUpdate] the payload types of
    [models.user], which the repository does not define. *)
Context {S Self UserCreate UserUpdate : Type}.

Definition get_all (self : Self) : M S value :=
  ret (List []).

Definition get_by_id (self : Self) (user_id : string) : M S value :=
  ret None_.

Definition create (self : Self) (user_data : UserCreate) : M S value :=
  pass.

Definition update (self : Self) (user_id : string) (user_data : UserUpdate)
  : M S value :=
  ret None_.

Definition delete (self : Self) (user_id : string) : M S value :=
  ret (Bool false).

End Methods.

End UserService.

(** ** The web framework, as far as the decorators rely on it *)

Module fastapi.
Import Py.

Inductive method : Type :=
| GET | POST | PUT | DELETE | PATCH | HEAD | OPTIONS | TRACE.

Definition method_eqb (a b : method) : bool :=
  match a, b with
  | GET, GET | POST, POST | PUT, PUT | DELETE, DELETE
  | PATCH, PATCH | HEAD, HEAD | OPTIONS, OPTIONS | TRACE, TRACE => true
  | _, _ => false
  end.

(** [status.HTTP_201_CREATED] and [status.HTTP_204_NO_CONTENT]. *)
Module status.
Definition HTTP_201_CREATED : Z := 201.
Definition HTTP_204_NO_CONTENT : Z := 204.
End status.

(** A [response_model]: the check that the returned content passes before
    it is sent, giving the content to send. *)
Definition annotation : Type := value -> option value.

(** [typing.List[a]]. *)
Definition List_ (a : annotation) : annotation :=
  fun v => match v with
           | List items => List <$> mapM a items
           | _ => None
           end.

Inductive response : Type :=
| JSONResponse (status_code : Z) (content : value)
| EmptyResponse (status_code : Z)
| PlainTextResponse (status_code : Z) (text : string)
| RedirectResponse (status_code : Z) (location : string)
| RequestValidationResponse
| FrameworkPage (page : string).

Definition response_status (r : response) : Z :=
  match r with
  | JSONResponse c _ | EmptyResponse c | PlainTextResponse c _
  | RedirectResponse c _ => c
  | RequestValidationResponse => 422
  | FrameworkPage _ => 200
  end.

Record request : Type := Request {
  req_method : method;
  req_path : string;
  req_headers : list (string * string);
  req_json : option value
}.

(** *** Path templates

    A path is cut at every slash; a template segment [{name}] stands for
    one non-empty segment, any other segment for itself. The templates of
    this program put a parameter in a segment of its own. *)

Definition is_slash (c : ascii) : bool := Ascii.eqb c "/".

Fixpoint segments (s : string) : list string :=
  match s with
  | EmptyString => [""]
  | String c s' =>
      if is_slash c then "" :: segments s'
      else match segments s' with
           | seg :: rest => String c seg :: rest
           | [] => [String c ""]
           end
  end.

(** [s.endswith("/")] and [s.rstrip("/")]. *)
Fixpoint endswith_slash (s : string) : bool :=
  match s with
  | EmptyString => false
  | String c EmptyString => is_slash c
  | String _ s' => endswith_slash s'
  end.

Fixpoint rstrip_slash (s : string) : string :=
  match s with
  | EmptyString => ""
  | String c s' =>
      match rstrip_slash s' with
      | EmptyString => if is_slash c then "" else String c ""
      | r => String c r
      end
  end.

Fixpoint before_brace (s : string) : option string :=
  match s with
  | EmptyString => None
  | String c EmptyString => if Ascii.eqb c "}" then Some "" else None
  | String c s' => String c <$> before_brace s'
  end.

Definition param_name (seg : string) : option string :=
  match seg with
  | String c s' => if Ascii.eqb c "{" then before_brace s' else None
  | EmptyString => None
  end.

(** The framework compiles a template to a regular expression closed by
    [$] and matches the path from its start; [$] stands for the end of the
    path and also for the place before one newline that ends it. So the
    last literal segment of a template is matched by itself and by itself
    followed by a newline, while a parameter, any run of characters other
    than the slash, takes a closing newline into its value. *)
Definition newline : string := String "010"%char "".

Definition is_last (tpl : list string) : bool :=
  match tpl with [] => true | _ :: _ => false end.

Fixpoint match_segments (tpl segs : list string)
  : option (list (string * string)) :=
  match tpl, segs with
  | [], [] => Some []
  | t :: tpl', x :: segs' =>
      match param_name t with
      | Some nm =>
          if String.eqb x "" then None
          else cons (nm, x) <$> match_segments tpl' segs'
      | None =>
          if String.eqb t x || (is_last tpl' && String.eqb (t ++ newline) x)
          then match_segments tpl' segs'
          else None
      end
  | _, _ => None
  end.

Definition match_path (template p : string) : option (list (string * string)) :=
  match_segments (segments template) (segments p).

Section Routing.
Context {S : Type}.

(** What a route runs: a handler of the program, called with the path
    parameters and the JSON body (no call when they do not fit the
    handler's signature), or a page that the framework serves itself. *)
Inductive endpoint : Type :=
| Handler (call : list (string * string) -> option value -> option (M S value))
| BuiltIn (page : string).

Record route : Type := Route {
  path : string;
  methods : list method;
  name : string;
  response_model : option annotation;
  status_code : Z;
  route_endpoint : endpoint
}.

Record APIRouter : Type := mkAPIRouter {
  prefix : string;
  tags : list string;
  router_routes : list route
}.

Inductive middleware : Type :=
| CORSMiddleware (allow_origins : list string) (allow_credentials : bool)
                 (allow_methods : list string) (allow_headers : list string).

Record FastAPI : Type := mkFastAPI {
  title : string;
  description : string;
  version : string;
  user_middleware : list middleware;
  routes : list route
}.

(** The routes every application starts with. *)
Definition framework_routes : list route :=
  [ Route "/openapi.json" [GET; HEAD] "openapi" None 200 (BuiltIn "openapi");
    Route "/docs" [GET; HEAD] "swagger_ui_html" None 200 (BuiltIn "docs");
    Route "/docs/oauth2-redirect" [GET; HEAD] "swagger_ui_redirect" None 200
          (BuiltIn "oauth2-redirect");
    Route "/redoc" [GET; HEAD] "redoc_html" None 200 (BuiltIn "redoc") ].

(** [FastAPI(title=..., description=..., version=...)]. *)
Definition new_FastAPI (title description version : string) : FastAPI :=
  mkFastAPI title description version [] framework_routes.

(** [app.add_middleware(...)]: the newest middleware is outermost. *)
Definition add_middleware (app : FastAPI) (mw : middleware) : FastAPI :=
  mkFastAPI (title app) (description app) (version app)
            (mw :: user_middleware app) (routes app).

Definition add_api_route (app : FastAPI) (r : route) : FastAPI :=
  mkFastAPI (title app) (description app) (version app)
            (user_middleware app) (routes app ++ [r]).

(** [@app.get(path)]: no response model, status 200. *)
Definition app_get (app : FastAPI) (p : string) (nm : string) (e : endpoint)
  : FastAPI :=
  add_api_route app (Route p [GET] nm None 200 e).

(** [APIRouter(prefix=..., tags=[...])]. *)
Definition new_APIRouter (prefix : string) (tags : list string) : APIRouter :=
  mkAPIRouter prefix tags [].

(** [@router.<method>(path, response_model=..., status_code=...)]: the
    route is stored under the router's prefix. *)
Definition router_add (r : APIRouter) (m : method) (p : string) (nm : string)
  (rm : option annotation) (code : Z) (e : endpoint) : APIRouter :=
  mkAPIRouter (prefix r) (tags r)
              (router_routes r ++ [Route (prefix r ++ p) [m] nm rm code e]).

(** [app.include_router(router)]. *)
Definition include_router (app : FastAPI) (r : APIRouter) : FastAPI :=
  mkFastAPI (title app) (description app) (version app)
            (user_middleware app) (routes app ++ router_routes r).

(** *** Resolving a request to a route *)

Inductive Match : Type :=
| NONE
| PARTIAL
| FULL (path_params : list (string * string)).

(** A route matches in full when the path fits its template and the
    method is one of its methods, in part when only the path fits. *)
Definition matches (r : route) (m : method) (p : string) : Match :=
  match match_path (path r) p with
  | Some params =>
      if existsb (method_eqb m) (methods r) then FULL params else PARTIAL
  | None => NONE
  end.

Definition is_NONE (x : Match) : bool :=
  match x with NONE => true | _ => false end.

Fixpoint first_full (rs : list route) (m : method) (p : string)
  : option (route * list (string * string)) :=
  match rs with
  | [] => None
  | r :: rs' =>
      match matches r m p with
      | FULL params => Some (r, params)
      | _ => first_full rs' m p
      end
  end.

Fixpoint first_partial (rs : list route) (m : method) (p : string)
  : option route :=
  match rs with
  | [] => None
  | r :: rs' =>
      match matches r m p with
      | PARTIAL => Some r
      | _ => first_partial rs' m p
      end
  end.

Inductive resolution : Type :=
| Found (r : route) (path_params : list (string * string))
| MethodNotAllowed (r : route)
| Redirected (location : string)
| NotFound.

(** The path with its trailing slash taken away or added. *)
Definition other_slash (p : string) : string :=
  if endswith_slash p then rstrip_slash p else p ++ "/".

(** The first route that matches in full is taken, else the first that
    matches in part, else the client is sent to the path with the other
    trailing slash if some route knows it, else there is no route. *)
Definition resolve (rs : list route) (m : method) (p : string) : resolution :=
  match first_full rs m p with
  | Some (r, params) => Found r params
  | None =>
      match first_partial rs m p with
      | Some r => MethodNotAllowed r
      | None =>
          if negb (String.eqb p "/")
             && existsb (fun r => negb (is_NONE (matches r m (other_slash p)))) rs
          then Redirected (other_slash p)
          else NotFound
      end
  end.

(** *** Running a route *)

Definition serialize_response (field : option annotation) (content : value)
  : outcome value :=
  match field with
  | None => Returned content
  | Some check =>
      match check content with
      | Some sent => Returned sent
      | None => Raised ResponseValidationError
      end
  end.

Definition is_body_allowed_for_status_code (code : Z) : bool :=
  negb (Z.ltb code 200 || Z.eqb code 204 || Z.eqb code 205 || Z.eqb code 304).

(** The request handler that the framework builds around an endpoint. *)
Definition request_handler (r : route) (params : list (string * string))
  (json : option value) : M S response :=
  match route_endpoint r with
  | BuiltIn page => ret (FrameworkPage page)
  | Handler call =>
      match call params json with
      | None => ret RequestValidationResponse
      | Some coroutine =>
          bind coroutine (fun raw =>
            match serialize_response (response_model r) raw with
            | Returned content =>
                ret (if is_body_allowed_for_status_code (status_code r)
                     then JSONResponse (status_code r) content
                     else EmptyResponse (status_code r))
            | Raised e => raise e
            end)
      end
  end.

(** The default exception handlers: an [HTTPException] becomes a JSON
    body with its detail, anything else the plain 500 page. *)
Definition exception_response (e : exn) : response :=
  match e with
  | HTTPException code detail => JSONResponse code (Dict [("detail", Str detail)])
  | _ => PlainTextResponse 500 "Internal Server Error"
  end.

Definition settle (m : M S response) : S -> response * S :=
  fun s => match m s with
           | (Returned r, s') => (r, s')
           | (Raised e, s') => (exception_response e, s')
           end.

(** The application's router, answering one request. *)
Definition serve (app : FastAPI) (req : request) : S -> response * S :=
  match resolve (routes app) (req_method req) (req_path req) with
  | Found r params => settle (request_handler r params (req_json req))
  | MethodNotAllowed _ =>
      settle (raise (HTTPException 405 "Method Not Allowed"))
  | Redirected location => settle (ret (RedirectResponse 307 location))
  | NotFound => settle (raise (HTTPException 404 "Not Found"))
  end.

(** An endpoint is reachable when some request resolves to its route. *)
Definition reaches (app : FastAPI) (m : method) (p : string) (nm : string)
  : bool :=
  match resolve (routes app) m p with
  | Found r _ => String.eqb (name r) nm
  | _ => false
  end.

(** *** Handler signatures

    How the framework calls a handler: with nothing, with a path
    parameter declared [name: str], with the JSON body read as a model,
    or with both. *)

Definition path_param (nm : string) (params : list (string * string))
  : option string :=
  snd <$> find (fun kv => String.eqb (fst kv) nm) params.

Definition no_args (f : M S value)
  : list (string * string) -> option value -> option (M S value) :=
  fun _ _ => Some f.

Definition with_path (nm : string) (f : string -> M S value)
  : list (string * string) -> option value -> option (M S value) :=
  fun params _ => f <$> path_param nm params.

Definition with_body {A} (parse : value -> option A) (f : A -> M S value)
  : list (string * string) -> option value -> option (M S value) :=
  fun _ json => f <$> (json ≫= parse).

Definition with_path_and_body {A} (nm : string) (parse : value -> option A)
  (f : string -> A -> M S value)
  : list (string * string) -> option value -> option (M S value) :=
  fun params json =>
    match path_param nm params, json ≫= parse with
    | Some x, Some a => Some (f x a)
    | _, _ => None
    end.

(** The route that a decorated function was registered under, run with
    given path parameters and body. *)
Definition route_named (rs : list route) (nm : string) : option route :=
  find (fun r => String.eqb (name r) nm) rs.

Definition call_named (rs : list route) (nm : string)
  (params : list (string * string)) (json : option value) (s : S)
  : option (response * S) :=
  (fun r => settle (request_handler r params json) s) <$> route_named rs nm.

Definition outcome_named (rs : list route) (nm : string)
  (params : list (string * string)) (json : option value) (s : S)
  : option (outcome response * S) :=
  (fun r => request_handler r params json s) <$> route_named rs nm.

(** The state that a sequence of earlier requests leaves. *)
Fixpoint replay (app : FastAPI) (earlier : list request) (s : S) : S :=
  match earlier with
  | [] => s
  | req :: rest => replay app rest (snd (serve app req s))
  end.

End Routing.
Arguments endpoint S : clear implicits.
Arguments route S : clear implicits.
Arguments APIRouter S : clear implicits.
Arguments FastAPI S : clear implicits.

End fastapi.

(** ** The CORS middleware that main.py installs

    The class [CORSMiddleware] of the framework: what its constructor
    makes of the four options that main.py passes, how it answers a
    preflight request, and where it lets a request through. Header names
    are in lower case, as the server hands them to the application. *)

Module cors.
Import Py fastapi.

Definition ALL_METHODS : list string :=
  ["DELETE"; "GET"; "HEAD"; "OPTIONS"; "PATCH"; "POST"; "PUT"].

Definition SAFELISTED_HEADERS : list string :=
  ["Accept"; "Accept-Language"; "Content-Language"; "Content-Type"].

(** [x in l]. *)
Definition mem (x : string) (l : list string) : bool :=
  existsb (String.eqb x) l.

(** [s.lower()], [s.strip()] and [s.split(",")] on code points below 256. *)
Definition lower_char (c : ascii) : ascii :=
  let n := nat_of_ascii c in
  if (Nat.leb 65 n && Nat.leb n 90)
     || (Nat.leb 192 n && Nat.leb n 222 && negb (Nat.eqb n 215))
  then ascii_of_nat (n + 32)
  else c.

Fixpoint lower (s : string) : string :=
  match s with
  | EmptyString => ""
  | String c s' => String (lower_char c) (lower s')
  end.

Definition is_white (c : ascii) : bool :=
  let n := nat_of_ascii c in
  (Nat.leb 9 n && Nat.leb n 13) || (Nat.leb 28 n && Nat.leb n 32)
  || Nat.eqb n 133 || Nat.eqb n 160.

Fixpoint lstrip (s : string) : string :=
  match s with
  | EmptyString => ""
  | String c s' => if is_white c then lstrip s' else s
  end.

Fixpoint rstrip (s : string) : string :=
  match s with
  | EmptyString => ""
  | String c s' =>
      match rstrip s' with
      | EmptyString => if is_white c then "" else String c ""
      | r => String c r
      end
  end.

Definition strip (s : string) : string := rstrip (lstrip s).

Fixpoint split_comma (s : string) : list string :=
  match s with
  | EmptyString => [""]
  | String c s' =>
      if Ascii.eqb c "," then "" :: split_comma s'
      else match split_comma s' with
           | x :: rest => String c x :: rest
           | [] => [String c ""]
           end
  end.

(** [", ".join(l)]. *)
Fixpoint join_comma (l : list string) : string :=
  match l with
  | [] => ""
  | [x] => x
  | x :: rest => x ++ ", " ++ join_comma rest
  end.

(** The attributes that the constructor leaves on the middleware. *)
Record CORS : Type := mkCORS {
  allow_origins : list string;
  allow_methods : list string;
  allow_headers : list string;
  allow_all_origins : bool;
  allow_all_headers : bool;
  allow_credentials : bool;
  preflight_explicit_allow_origin : bool
}.

(** The constructor: a wildcard among the methods stands for
    [ALL_METHODS]; the allowed headers are the safelisted ones and the
    given ones, in lower case (a set, of which only membership is asked). *)
Definition init (mw : middleware) : CORS :=
  match mw with
  | CORSMiddleware origins credentials methods headers =>
      let all_origins := mem "*" origins in
      mkCORS origins
             (if mem "*" methods then ALL_METHODS else methods)
             (map lower (SAFELISTED_HEADERS ++ headers))
             all_origins
             (mem "*" headers)
             credentials
             (negb all_origins || credentials)
  end.

Definition is_allowed_origin (c : CORS) (origin : string) : bool :=
  allow_all_origins c || mem origin (allow_origins c).

(** [requested_method in self.allow_methods]. *)
Definition allows_method (c : CORS) (requested_method : string) : bool :=
  mem requested_method (allow_methods c).

(** The check of the requested headers, one by one unless all are
    allowed. *)
Definition allows_headers (c : CORS) (requested_headers : string) : bool :=
  allow_all_headers c
  || forallb (fun h => mem (strip h) (allow_headers c))
             (map lower (split_comma requested_headers)).

Definition failures (c : CORS) (requested_origin requested_method : string)
  (requested_headers : option string) : list string :=
  (if is_allowed_origin c requested_origin then [] else ["origin"])
  ++ (if allows_method c requested_method then [] else ["method"])
  ++ match requested_headers with
     | Some hs => if allows_headers c hs then [] else ["headers"]
     | None => []
     end.

(** The answer to a preflight request. *)
Definition preflight_response (c : CORS) (requested_origin requested_method : string)
  (requested_headers : option string) : response :=
  match failures c requested_origin requested_method requested_headers with
  | [] => PlainTextResponse 200 "OK"
  | fs => PlainTextResponse 400 ("Disallowed CORS " ++ join_comma fs)
  end.

(** [headers.get(name)]: the first header of that name. *)
Definition header (nm : string) (headers : list (string * string))
  : option string :=
  snd <$> find (fun kv => String.eqb (fst kv) nm) headers.

(** A preflight request: OPTIONS with an origin and a requested method. *)
Definition preflight (req : request) : option (string * string) :=
  match header "origin" (req_headers req), req_method req,
        header "access-control-request-method" (req_headers req) with
  | Some origin, OPTIONS, Some requested => Some (origin, requested)
  | _, _, _ => None
  end.

Section Stack.
Context {S : Type}.

(** The middleware around an application: a preflight request is answered
    by the middleware itself; any other request goes to the application,
    whose status and body the middleware leaves as they are (it adds
    headers only). *)
Definition call (c : CORS) (inner : request -> S -> response * S)
  (req : request) : S -> response * S :=
  match preflight req with
  | Some (origin, requested) =>
      fun s => (preflight_response c origin requested
                  (header "access-control-request-headers" (req_headers req)),
                s)
  | None => inner req
  end.

(** The stack of installed middleware, outermost first, around the
    router. *)
Fixpoint stack (mws : list middleware) (inner : request -> S -> response * S)
  : request -> S -> response * S :=
  match mws with
  | [] => inner
  | mw :: rest => call (init mw) (stack rest inner)
  end.

(** The application answering one request. *)
Definition handle (app : FastAPI S) : request -> S -> response * S :=
  stack (user_middleware app) (serve app).

End Stack.

End cors.

(** ** models/user.py

    The controller and the service import [User], [UserCreate] and
    [UserUpdate] from [models.user], which the repository does not
    contain: the three classes are parameters of everything below. *)

Class models_user : Type := {
  UserCreate : Type;
  UserUpdate : Type;
  read_UserCreate : Py.value -> option UserCreate;
  read_UserUpdate : Py.value -> option UserUpdate;
  User_fields : list (string * Py.value) -> option (list (string * Py.value))
}.

(** Modelled from the spec: [User] is the unseen user schema of
    [models.user]; as a response model it is fitted only by an object, whose
    fields the schema then checks. *)
Definition User `{models_user} : fastapi.annotation :=
  fun v => match v with
           | Py.Dict items => Py.Dict <$> User_fields items
           | _ => None
           end.

(** ** controllers/user_controller.py *)

Module user_controller.
Import Py fastapi.

Section Controller.
Context {S : Type} `{models : models_user}.

Definition get_all_users : M S value :=
  ret (List []).

Definition get_user (user_id : string) : M S value :=
  raise (HTTPException 404 "User not found").

Definition create_user (user_data : UserCreate) : M S value :=
  pass.

Definition update_user (user_id : string) (user_data : UserUpdate) : M S value :=
  pass.

Definition delete_user (user_id : string) : M S value :=
  pass.

(** [router = APIRouter(prefix="/api/users", tags=["users"])] and the five
    decorators, in the order of the module. *)
Definition router : APIRouter S :=
  let r := new_APIRouter "/api/users" ["users"] in
  let r := router_add r GET "/" "get_all_users"
             (Some (List_ User)) 200
             (Handler (no_args get_all_users)) in
  let r := router_add r GET "/{user_id}" "get_user"
             (Some User) 200
             (Handler (with_path "user_id" get_user)) in
  let r := router_add r POST "/" "create_user"
             (Some User) status.HTTP_201_CREATED
             (Handler (with_body read_UserCreate create_user)) in
  let r := router_add r PUT "/{user_id}" "update_user"
             (Some User) 200
             (Handler (with_path_and_body "user_id" read_UserUpdate update_user)) in
  router_add r DELETE "/{user_id}" "delete_user"
             None status.HTTP_204_NO_CONTENT
             (Handler (with_path "user_id" delete_user)).

(** The names of the five handlers. *)
Definition handlers : list string :=
  ["get_all_users"; "get_user"; "create_user"; "update_user"; "delete_user"].

End Controller.

End user_controller.

(** ** The built-ins that main.py calls *)

Module builtins.
Import Py.

(** A string is a sequence of code points below 256. The white space that
    [int] skips around a literal is tab to carriage return and the space
    and, of the code points above 127, next line (133) and the no-break
    space (160); the separators 28 to 31 are not skipped. The decimal
    digits below 256 are the ASCII ones. *)
Definition is_space (c : ascii) : bool :=
  let n := nat_of_ascii c in
  (Nat.leb 9 n && Nat.leb n 13) || Nat.eqb n 32
  || Nat.eqb n 133 || Nat.eqb n 160.

Definition digit_of (c : ascii) : option Z :=
  let n := nat_of_ascii c in
  if Nat.leb 48 n && Nat.leb n 57 then Some (Z.of_nat (n - 48)) else None.

Fixpoint lstrip (s : string) : string :=
  match s with
  | EmptyString => ""
  | String c s' => if is_space c then lstrip s' else s
  end.

Fixpoint rstrip (s : string) : string :=
  match s with
  | EmptyString => ""
  | String c s' =>
      match rstrip s' with
      | EmptyString => if is_space c then "" else String c ""
      | r => String c r
      end
  end.

(** Digits, with single underscores allowed between two of them. *)
Fixpoint digits (s : string) (acc : Z) (after_digit : bool) : option Z :=
  match s with
  | EmptyString => if after_digit then Some acc else None
  | String c s' =>
      match digit_of c with
      | Some d => digits s' (10 * acc + d)%Z true
      | None =>
          if Ascii.eqb c "_" && after_digit then digits s' acc false else None
      end
  end.

(** The interpreter's default cap on the number of digits of a literal
    ([sys.int_max_str_digits]): a longer one is refused. *)
Definition max_str_digits : nat := 4300.

Fixpoint digit_count (s : string) : nat :=
  match s with
  | EmptyString => O
  | String c s' =>
      match digit_of c with
      | Some _ => S (digit_count s')
      | None => digit_count s'
      end
  end.

Definition capped_digits (s : string) : option Z :=
  match digits s 0%Z false with
  | Some z => if Nat.leb (digit_count s) max_str_digits then Some z else None
  | None => None
  end.

(** The integer that [int] reads in a string: white space around, an
    optional sign, decimal digits within the cap. *)
Definition int_literal (s : string) : option Z :=
  match rstrip (lstrip s) with
  | String c r =>
      if Ascii.eqb c "+" then capped_digits r
      else if Ascii.eqb c "-" then Z.opp <$> capped_digits r
      else capped_digits (String c r)
  | EmptyString => None
  end.

(** [int(v)]. *)
Definition int (v : value) : outcome Z :=
  match v with
  | Int z => Returned z
  | Bool b => Returned (if b then 1 else 0)%Z
  | Str s =>
      match int_literal s with
      | Some z => Returned z
      | None => Raised (ValueError s)
      end
  | _ => Raised TypeError
  end.

End builtins.

(** [os.getenv] and [dotenv.load_dotenv] over the environment, a finite
    map from names to strings. *)
Module os.
Import Py.

(** [os.getenv(key, default)]. *)
Definition getenv (environ : gmap string string) (key : string)
  (default : value) : value :=
  match environ !! key with
  | Some s => Str s
  | None => default
  end.

(** [load_dotenv()], from the values that the library has computed for the
    variables of the [.env] file (its lines parsed and the references in
    them resolved, which is not modelled): they are added to the
    environment, which keeps the ones it already defines. *)
Definition load_dotenv (dotenv environ : gmap string string)
  : gmap string string :=
  environ ∪ dotenv.

End os.

(** ** main.py *)

Module main.
Import Py fastapi.

Section App.
Context {S : Type}.

Definition health_check : M S value :=
  ret (Dict [("status", Str "ok"); ("version", Str "1.0.0")]).

(** The module's top level up to the commented-out router registration:
    the application object, the CORS middleware and the health check. *)
Definition app : FastAPI S :=
  let app := new_FastAPI "Migrated Application"
                         "Application migrated to Python/FastAPI"
                         "1.0.0" in
  let app := add_middleware app
               (CORSMiddleware ["*"] true ["*"] ["*"]) in
  app_get app "/health" "health_check" (Handler (no_args health_check)).

End App.

(** The arguments of [uvicorn.run]. *)
Record uvicorn_run : Type := Uvicorn {
  run_app : string;
  run_host : string;
  run_port : Z;
  run_reload : bool
}.

(** [int(os.getenv("PORT", 8000))]. *)
Definition port (environ : gmap string string) : outcome Z :=
  builtins.int (os.getenv environ "PORT" (Int 8000)).

(** The block under [if __name__ == "__main__":], in the environment that
    [load_dotenv()] left, up to the call of [uvicorn.run]: the result is
    the call that the block makes, with its arguments, and none when the
    module is imported; reading the port may raise before the call. What
    [uvicorn.run] does with the arguments is not part of the model. *)
Definition start (module_name : string) (environ : gmap string string)
  : outcome (option uvicorn_run) :=
  if String.eqb module_name "__main__" then
    match port environ with
    | Returned p => Returned (Some (Uvicorn "main:app" "0.0.0.0" p true))
    | Raised e => Raised e
    end
  else Returned None.

(** The whole module, from the process environment and the [.env] file. *)
Definition run_module (module_name : string) (dotenv environ : gmap string string)
  : outcome (option uvicorn_run) :=
  start module_name (os.load_dotenv dotenv environ).

End main.

(** ** The service as the controller could see it

    Any class with the five methods of [UserService], over whatever state
    its instances keep, and a process in which one instance of it lives. *)

Module wiring.
Import Py.

Section Service.
Context `{models : models_user}.

Record service : Type := Service {
  state : Type;
  svc_get_all : M state value;
  svc_get_by_id : string -> M state value;
  svc_create : UserCreate -> M state value;
  svc_update : string -> UserUpdate -> M state value;
  svc_delete : string -> M state value
}.

Record process : Type := Process {
  implementation : service;
  instance : state implementation
}.

(** The class of the repository, whose instances have no attribute. *)
Definition user_service : service :=
  Service unit
          (UserService.get_all tt)
          (UserService.get_by_id tt)
          (UserService.create tt)
          (UserService.update tt)
          (UserService.delete tt).

(** The application with the controller's router included, which main.py
    leaves commented out. *)
Definition registered : fastapi.FastAPI process :=
  fastapi.include_router main.app user_controller.router.

End Service.

End wiring.

(** A user schema to run the development on: objects with a string
    [name], payloads that are any object. *)
Module sample.
Import Py.

Definition object (v : value) : option (list (string * value)) :=
  match v with Dict items => Some items | _ => None end.

Definition has_name (items : list (string * value))
  : option (list (string * value)) :=
  match find (fun kv => String.eqb (fst kv) "name") items with
  | Some (_, Str _) => Some items
  | _ => None
  end.

Definition models : models_user := {|
  UserCreate := list (string * value);
  UserUpdate := list (string * value);
  read_UserCreate := object;
  read_UserUpdate := object;
  User_fields := has_name
|}.

(** Another implementation of the service interface, which keeps the
    created payloads in memory. *)
Definition memory_service : @wiring.service models :=
  @wiring.Service models (list (list (string * value)))
    (fun db => (Returned (List (map Dict db)), db))
    (fun user_id db =>
       (Returned (from_option Dict None_ (head db)), db))
    (fun user_data db => (Returned (Dict user_data), user_data :: db))
    (fun user_id user_data db => (Returned (Dict user_data), db))
    (fun user_id db => (Returned (Bool true), tail db)).

End sample.

(** ** Views for stating what routing, parsing and call sequences do *)

Module view.
Import Py fastapi.

(** A string without a slash, and the inverse of [segments]. *)
Fixpoint slash_free (s : string) : bool :=
  match s with
  | EmptyString => true
  | String c s' => negb (is_slash c) && slash_free s'
  end.

Fixpoint join_slash (l : list string) : string :=
  match l with
  | [] => ""
  | [x] => x
  | x :: rest => x ++ String "/" (join_slash rest)
  end.


(** What a resolution means for the client, without the route record. *)
Inductive verdict : Type :=
| Calls (handler : string) (path_params : list (string * string))
| Refuses
| Redirects (location : string)
| Unknown.

Definition verdict_of {S} (r : @resolution S) : verdict :=
  match r with
  | Found r params => Calls (name r) params
  | MethodNotAllowed _ => Refuses
  | Redirected location => Redirects location
  | NotFound => Unknown
  end.

Section Calls.
Context {S Self UserCreate UserUpdate : Type}.

(** One awaited call on a [UserService] instance, and a sequence of them
    whose results are dropped. *)
Inductive call : Type :=
| GetAll
| GetById (user_id : string)
| Create (user_data : UserCreate)
| Update (user_id : string) (user_data : UserUpdate)
| Delete (user_id : string).

Definition perform (self : Self) (c : call) : M S value :=
  match c with
  | GetAll => UserService.get_all self
  | GetById user_id => UserService.get_by_id self user_id
  | Create user_data => UserService.create self user_data
  | Update user_id user_data => UserService.update self user_id user_data
  | Delete user_id => UserService.delete self user_id
  end.

Fixpoint perform_all (self : Self) (cs : list call) : M S unit :=
  match cs with
  | [] => ret tt
  | c :: cs' => bind (perform self c) (fun _ => perform_all self cs')
  end.

End Calls.

End view.

(** * Properties *)

Import Py fastapi.

(** ** Shared facts about the framework model *)

Section Framework.
Context {S : Type}.

Lemma settle_ret (r : response) (s : S) : settle (ret r) s = (r, s).
Proof. reflexivity. Qed.

Lemma settle_raise (e : exn) (s : S) :
  settle (raise e) s = (exception_response e, s).
Proof. reflexivity. Qed.

Lemma bind_ret {A B} (a : A) (k : A -> M S B) (s : S) :
  bind (ret a) k s = k a s.
Proof. reflexivity. Qed.

Lemma bind_raise {A B} (e : exn) (k : A -> M S B) (s : S) :
  bind (raise e) k s = (Raised e, s).
Proof. reflexivity. Qed.

(** Whatever route resolution finds is one of the routes. *)
Lemma first_full_In (rs : list (route S)) m p r params :
  first_full rs m p = Some (r, params) -> In r rs.
Proof.
  induction rs as [|r0 rs IH]; simpl; [discriminate|].
  destruct (matches r0 m p).
  - intros H. right. now apply IH.
  - intros H. right. now apply IH.
  - intros H. injection H as -> _. now left.
Qed.

Lemma first_full_none (rs : list (route S)) m p :
  Forall (fun r => matches r m p = NONE) rs -> first_full rs m p = None.
Proof.
  induction 1 as [|r rs Hr _ IH]; simpl; [reflexivity|]. now rewrite Hr.
Qed.

Lemma first_partial_none (rs : list (route S)) m p :
  Forall (fun r => matches r m p = NONE) rs -> first_partial rs m p = None.
Proof.
  induction 1 as [|r rs Hr _ IH]; simpl; [reflexivity|]. now rewrite Hr.
Qed.

Lemma existsb_none (rs : list (route S)) m p :
  Forall (fun r => matches r m p = NONE) rs ->
  existsb (fun r => negb (is_NONE (matches r m p))) rs = false.
Proof.
  induction 1 as [|r rs Hr _ IH]; simpl; [reflexivity|]. now rewrite Hr.
Qed.

(** A path that no route knows, with either trailing slash, has no route. *)
Lemma resolve_not_found (rs : list (route S)) m p :
  Forall (fun r => matches r m p = NONE) rs ->
  Forall (fun r => matches r m (other_slash p) = NONE) rs ->
  resolve rs m p = NotFound.
Proof.
  intros H1 H2. unfold resolve.
  rewrite (first_full_none _ _ _ H1), (first_partial_none _ _ _ H1).
  rewrite (existsb_none _ _ _ H2). now rewrite andb_false_r.
Qed.

End Framework.

(** The other trailing slash keeps a path under [/api/users]. *)
Lemma other_slash_under_users (rest : string) :
  exists rest', other_slash ("/api/users" ++ rest) = "/api/users" ++ rest'.
Proof.
  unfold other_slash. destruct (endswith_slash ("/api/users" ++ rest)).
  - exists (rstrip_slash rest).
    change ("/api/users" ++ rest) with
      (String "/" (String "a" (String "p" (String "i" (String "/"
        (String "u" (String "s" (String "e" (String "r" (String "s" rest)))))))))).
    cbn [rstrip_slash is_slash Ascii.eqb Bool.eqb].
    destruct (rstrip_slash rest); reflexivity.
  - exists (rest ++ "/"). reflexivity.
Qed.

(** ** The service and the controller, handler by handler *)

Section Handlers.
Context {S Self : Type} `{models : models_user}.

(** No response model of the controller is fitted by [None] or, for a
    single user, by a list. *)
Lemma User_rejects_None : User None_ = None.
Proof. reflexivity. Qed.

Lemma List_User_accepts_empty : List_ User (List []) = Some (List []).
Proof. reflexivity. Qed.

(** C1: for every [user_id], [get_user] raises [HTTPException] with status
    404 and detail "User not found" (which the route of
    [GET /api/users/{user_id}] answers as that 404), and
    [UserService.get_by_id] returns [None], which is no user; neither
    touches the state. *)
Theorem get_by_id_is_always_not_found
  (self : Self) (user_id : string) (json : option value) (s : S) :
  user_controller.get_user user_id s
    = (Raised (HTTPException 404 "User not found"), s)
  /\ call_named (router_routes user_controller.router) "get_user"
       [("user_id", user_id)] json s
     = Some (JSONResponse 404 (Dict [("detail", Str "User not found")]), s)
  /\ UserService.get_by_id self user_id s = (Returned None_, s)
  /\ User None_ = None.
Proof. repeat split. Qed.

(** C5: both list operations return the empty list on every call:
    [get_all_users] returns [[]], which the route of [GET /api/users/]
    sends with status 200, and [UserService.get_all] returns [[]]. *)
Theorem list_operations_return_empty
  (self : Self) (params : list (string * string)) (json : option value) (s : S) :
  user_controller.get_all_users s = (Returned (List []), s)
  /\ call_named (router_routes user_controller.router) "get_all_users"
       params json s
     = Some (JSONResponse 200 (List []), s)
  /\ UserService.get_all self s = (Returned (List []), s).
Proof. repeat split. Qed.

(** C6: the service's write operations do nothing and return a falsy
    value whatever they are given: [create] and [update] return [None],
    [delete] returns [False], and the state is as before. *)
Theorem service_writes_are_placeholders
  (self : Self) (user_id : string) (created : UserCreate) (updated : UserUpdate)
  (s : S) :
  UserService.create self created s = (Returned None_, s)
  /\ UserService.update self user_id updated s = (Returned None_, s)
  /\ UserService.delete self user_id s = (Returned (Bool false), s)
  /\ truthy None_ = false
  /\ truthy (Bool false) = false.
Proof. repeat split. Qed.

(** C10: no method of [UserService] raises: each of the five returns its
    constant on every input and state, while the one handler that raises,
    [get_user], is in the controller. *)
Theorem service_never_raises
  (self : Self) (user_id : string) (created : UserCreate) (updated : UserUpdate)
  (s : S) :
  result (UserService.get_all self) s = Returned (List [])
  /\ result (UserService.get_by_id self user_id) s = Returned None_
  /\ result (UserService.create self created) s = Returned None_
  /\ result (UserService.update self user_id updated) s = Returned None_
  /\ result (UserService.delete self user_id) s = Returned (Bool false)
  /\ is_raised (result (user_controller.get_user user_id) s) = true
  /\ is_raised (result user_controller.get_all_users s) = false
  /\ is_raised (result (user_controller.create_user created) s) = false
  /\ is_raised (result (user_controller.update_user user_id updated) s) = false
  /\ is_raised (result (user_controller.delete_user user_id) s) = false.
Proof. repeat split. Qed.

End Handlers.

Section Writes.
Context {S : Type} `{models : models_user}.

(** C4: [create_user], [update_user] and [delete_user] return [None] on
    every input; [None] does not fit [User], the response model declared
    for POST and PUT, so whenever the framework calls one of these two
    handlers the request ends in a [ResponseValidationError], answered as
    the plain 500 page, and never in a response of the declared model. *)
Theorem write_handlers_return_nothing
  (user_id : string) (created : UserCreate) (updated : UserUpdate)
  (params : list (string * string)) (json : option value) (s : S) :
  user_controller.create_user created s = (Returned None_, s)
  /\ user_controller.update_user user_id updated s = (Returned None_, s)
  /\ user_controller.delete_user user_id s = (Returned None_, s)
  /\ @response_model S
       <$> route_named (router_routes user_controller.router) "create_user"
     = Some (Some User)
  /\ @response_model S
       <$> route_named (router_routes user_controller.router) "update_user"
     = Some (Some User)
  /\ User None_ = None
  /\ outcome_named (router_routes user_controller.router) "create_user"
       params json s
     = Some (match json ≫= read_UserCreate with
             | Some _ => Raised ResponseValidationError
             | None => Returned RequestValidationResponse
             end, s)
  /\ outcome_named (router_routes user_controller.router) "update_user"
       params json s
     = Some (match path_param "user_id" params, json ≫= read_UserUpdate with
             | Some _, Some _ => Raised ResponseValidationError
             | _, _ => Returned RequestValidationResponse
             end, s)
  /\ exception_response ResponseValidationError
     = PlainTextResponse 500 "Internal Server Error".
Proof.
  repeat split.
  - unfold outcome_named. simpl.
    unfold request_handler, with_body. simpl.
    destruct (json ≫= read_UserCreate); reflexivity.
  - unfold outcome_named. simpl.
    unfold request_handler, with_path_and_body. simpl.
    destruct (path_param "user_id" params);
      destruct (json ≫= read_UserUpdate); reflexivity.
Qed.

End Writes.

(** ** The application of main.py *)

Section Application.
Context {S : Type}.

Local Abbreviation app := (@main.app S).

(** The routes of the application, by name. *)
Lemma app_route_names :
  map name (routes app)
  = ["openapi"; "swagger_ui_html"; "swagger_ui_redirect"; "redoc_html";
     "health_check"].
Proof. reflexivity. Qed.

(** No route of the application knows a path under [/api/users]. *)
Lemma app_unmatched (m : method) (rest : string) :
  Forall (fun r => matches r m ("/api/users" ++ rest) = NONE) (routes app).
Proof. repeat constructor. Qed.

Lemma app_not_found (m : method) (rest : string) :
  resolve (routes app) m ("/api/users" ++ rest) = NotFound.
Proof.
  apply resolve_not_found; [apply app_unmatched|].
  destruct (other_slash_under_users rest) as [rest' ->]. apply app_unmatched.
Qed.

(** Whatever a request resolves to is one of the application's routes. *)
Lemma app_found (m : method) (p : string) r params :
  resolve (routes app) m p = Found r params ->
  In (name r) (map name (routes app)).
Proof.
  unfold resolve. destruct (first_full _ m p) as [[r0 ps]|] eqn:E.
  - intros H. injection H as -> _. apply in_map. eapply first_full_In, E.
  - destruct (first_partial _ m p); [discriminate|].
    destruct (_ && _); discriminate.
Qed.

Lemma app_reaches (m : method) (p nm : string) :
  reaches app m p nm = true -> In nm (map name (routes app)).
Proof.
  unfold reaches. destruct (resolve _ m p) as [r ps| | |] eqn:E; try discriminate.
  intros H. apply String.eqb_eq in H as <-. eapply app_found, E.
Qed.

(** C2: [health_check] returns exactly [{"status": "ok", "version":
    "1.0.0"}], and the application answers [GET /health] with that object
    and status 200, whatever the request carries and whatever requests
    came before. *)
Theorem health_check_is_ok
  (headers : list (string * string)) (json : option value)
  (earlier : list request) (s : S) :
  main.health_check s
    = (Returned (Dict [("status", Str "ok"); ("version", Str "1.0.0")]), s)
  /\ serve app (Request GET "/health" headers json) (replay app earlier s)
     = (JSONResponse 200 (Dict [("status", Str "ok"); ("version", Str "1.0.0")]),
        replay app earlier s)
  /\ response_status
       (fst (serve app (Request GET "/health" headers json)
                   (replay app earlier s)))
     = 200.
Proof.
  generalize (replay app earlier s). intros s'. repeat split.
Qed.

(** C8, as the code has it: the one middleware installed on the
    application is the CORS middleware with the wildcard for origins,
    methods and headers and with credentials allowed. It allows every
    origin, every requested header and credentials; the wildcard for the
    methods stands for the seven methods DELETE, GET, HEAD, OPTIONS, PATCH,
    POST and PUT, so a preflight request is answered 200 "OK" when it asks
    for one of these and 400 "Disallowed CORS method" when it asks for any
    other method, whatever its origin and requested headers. *)
Theorem cors_allows_the_standard_methods
  (origin requested_method asked : string) (requested_headers : option string) :
  user_middleware app = [CORSMiddleware ["*"] true ["*"] ["*"]]
  /\ Forall (fun mw =>
               cors.is_allowed_origin (cors.init mw) origin = true
               /\ cors.allows_headers (cors.init mw) asked = true
               /\ cors.allow_credentials (cors.init mw) = true
               /\ cors.allow_methods (cors.init mw)
                  = ["DELETE"; "GET"; "HEAD"; "OPTIONS"; "PATCH"; "POST"; "PUT"]
               /\ cors.preflight_response (cors.init mw) origin
                    requested_method requested_headers
                  = (if cors.mem requested_method cors.ALL_METHODS
                     then PlainTextResponse 200 "OK"
                     else PlainTextResponse 400 "Disallowed CORS method"))
            (user_middleware app).
Proof.
  split; [reflexivity|].
  constructor; [|constructor].
  repeat split.
  unfold cors.preflight_response, cors.failures, cors.allows_method.
  cbn [cors.init cors.is_allowed_origin cors.allow_all_origins cors.mem
       existsb String.eqb Ascii.eqb Bool.eqb orb cors.allow_methods
       cors.allows_headers cors.allow_all_headers].
  fold (cors.mem requested_method cors.ALL_METHODS).
  destruct (cors.mem requested_method cors.ALL_METHODS);
    destruct requested_headers; reflexivity.
Qed.

Section Unregistered.
Context `{models : models_user}.

Local Abbreviation users := (@user_controller.router S models).

(** The five routes that the controller declares, all under
    [/api/users]. *)
Lemma router_route_names :
  map name (router_routes users) = user_controller.handlers.
Proof. reflexivity. Qed.

(** C3: main.py never includes the user router: the application's routes
    contain [/health] and none under [/api/users], where all five routes of
    the controller are; so the application's router has no route for any
    path under [/api/users], and no request at all, whatever its method and
    path, reaches one of the five handlers. *)
Theorem user_router_is_not_registered (m : method) (p rest : string) :
  existsb (fun r => String.eqb (path r) "/health"
                    && existsb (method_eqb GET) (methods r))
          (routes app) = true
  /\ Forall (fun r => String.prefix "/api/users" (path r) = false) (routes app)
  /\ Forall (fun r => String.prefix "/api/users" (path r) = true)
            (router_routes users)
  /\ map name (router_routes users)
     = ["get_all_users"; "get_user"; "create_user"; "update_user";
        "delete_user"]
  /\ resolve (routes app) m ("/api/users" ++ rest) = NotFound
  /\ Forall (fun nm => reaches app m p nm = false) (map name (router_routes users)).
Proof.
  split; [reflexivity|].
  split; [repeat constructor|].
  split; [repeat constructor|].
  split; [reflexivity|].
  split; [apply app_not_found|].
  rewrite router_route_names.
  repeat constructor;
    (destruct (reaches app m p _) eqn:E; [|reflexivity];
     apply app_reaches in E; rewrite app_route_names in E; simpl in E;
     intuition discriminate).
Qed.

End Unregistered.

End Application.

(** C8, as the spec has it, fails: the middleware does not allow every
    method. A preflight request that asks for TRACE is refused. *)
Lemma cors_refuses_TRACE :
  map (fun mw => cors.allows_method (cors.init mw) "TRACE")
      (user_middleware (@main.app unit))
  = [false]
  /\ map (fun mw => cors.preflight_response (cors.init mw)
                      "https://example.org" "TRACE" None)
         (user_middleware (@main.app unit))
     = [PlainTextResponse 400 "Disallowed CORS method"].
Proof. split; reflexivity. Qed.

(** ** The controller and the service *)

Section Unconnected.
Context {S : Type} `{models : models_user}.

(** With the router included, every route of the application answers
    without reading or changing the state. *)
Lemma included_routes_constant r params json :
  In r (routes (include_router (@main.app S) user_controller.router)) ->
  constant (settle (request_handler r params json)).
Proof.
  simpl. intros H.
  repeat (destruct H as [<-|H]; [|]); try contradiction;
    unfold constant, request_handler; cbn [route_endpoint];
    unfold no_args, with_path, with_body, with_path_and_body.
  1-5: eexists; intros ?; reflexivity.
  - eexists; intros ?; reflexivity.
  - destruct (path_param "user_id" params); eexists; intros ?; reflexivity.
  - destruct (json ≫= read_UserCreate); eexists; intros ?; reflexivity.
  - destruct (path_param "user_id" params);
      destruct (json ≫= read_UserUpdate); eexists; intros ?; reflexivity.
  - destruct (path_param "user_id" params); eexists; intros ?; reflexivity.
Qed.

Lemma included_serve_constant (req : request) :
  constant (serve (include_router (@main.app S) user_controller.router) req).
Proof.
  unfold serve.
  destruct (resolve _ (req_method req) (req_path req)) as [r ps| | |] eqn:E.
  - apply included_routes_constant.
    unfold resolve in E.
    destruct (first_full _ _ _) as [[r0 ps0]|] eqn:F.
    + injection E as -> _. eapply first_full_In, F.
    + destruct (first_partial _ _ _); [discriminate|].
      destruct (_ && _); discriminate.
  - eexists; intros ?; reflexivity.
  - eexists; intros ?; reflexivity.
  - eexists; intros ?; reflexivity.
Qed.

End Unconnected.

Section Independence.
Context `{models : models_user}.

(** C7: no handler of the controller uses the service: in two processes
    with any two implementations of the service in any two states, each of
    the five handlers gives the same result on the same arguments, the
    application with the router included gives the same response to the
    same request, and the service's state is left as it was. *)
Theorem controller_ignores_service
  (w1 w2 : wiring.process) (user_id : string)
  (created : UserCreate) (updated : UserUpdate) (req : request) :
  result user_controller.get_all_users w1
    = result user_controller.get_all_users w2
  /\ result (user_controller.get_user user_id) w1
     = result (user_controller.get_user user_id) w2
  /\ result (user_controller.create_user created) w1
     = result (user_controller.create_user created) w2
  /\ result (user_controller.update_user user_id updated) w1
     = result (user_controller.update_user user_id updated) w2
  /\ result (user_controller.delete_user user_id) w1
     = result (user_controller.delete_user user_id) w2
  /\ fst (serve wiring.registered req w1) = fst (serve wiring.registered req w2)
  /\ snd (serve wiring.registered req w1) = w1.
Proof.
  repeat split.
  - destruct (included_serve_constant (S:=wiring.process) req) as [a Ha].
    unfold wiring.registered. now rewrite !Ha.
  - destruct (included_serve_constant (S:=wiring.process) req) as [a Ha].
    unfold wiring.registered. now rewrite Ha.
Qed.

End Independence.

(** Two processes to compare: the repository's service, and one that
    keeps users in memory and holds one. *)
Example controller_ignores_either_service :
  let w1 := wiring.Process (@wiring.user_service sample.models) tt in
  let w2 := wiring.Process sample.memory_service [[("name", Str "ada")]] in
  fst (serve wiring.registered (Request GET "/api/users/" [] None) w1)
  = fst (serve wiring.registered (Request GET "/api/users/" [] None) w2)
  /\ fst (serve wiring.registered (Request GET "/api/users/" [] None) w2)
     = JSONResponse 200 (List []).
Proof. split; reflexivity. Qed.

(** ** The listening port *)

(** *** [int] and the decimal printer

    What [int] reads in the decimal text of an integer, as the printer of
    the library writes it. *)













Example port_default : main.port ∅ = Returned 8000.
Proof. reflexivity. Qed.

Example port_3000 : main.port {[ "PORT" := "3000" ]} = Returned 3000.
Proof. reflexivity. Qed.

Example port_not_a_number :
  main.run_module "__main__" ∅ {[ "PORT" := "http" ]} = Raised (ValueError "http").
Proof. reflexivity. Qed.

Example port_imported :
  main.run_module "main" ∅ {[ "PORT" := "3000" ]} = Returned None.
Proof. reflexivity. Qed.

(** * Further properties *)

Import view.

(** ** Paths and templates *)

Lemma is_slash_eq (c : ascii) : is_slash c = true -> c = "/"%char.
Proof. apply Ascii.eqb_eq. Qed.

Lemma segments_nonempty (s : string) : segments s <> [].
Proof.
  destruct s as [|c s]; simpl; [discriminate|].
  destruct (is_slash c); [discriminate|].
  destruct (segments s); discriminate.
Qed.

(** Joining the segments of a path with slashes gives the path back. *)
Lemma join_segments (s : string) : join_slash (segments s) = s.
Proof.
  induction s as [|c s IH]; [reflexivity|]. simpl segments.
  destruct (is_slash c) eqn:Hc.
  - apply is_slash_eq in Hc as ->.
    pose proof (segments_nonempty s) as Hne.
    destruct (segments s) as [|x l]; [contradiction|].
    change (join_slash ("" :: x :: l)) with (String "/" (join_slash (x :: l))).
    now rewrite IH.
  - destruct (segments s) as [|x l] eqn:E; [now destruct (segments_nonempty s)|].
    destruct l as [|y l].
    + simpl in *. now rewrite IH.
    + change (join_slash (String c x :: y :: l))
        with (String c (join_slash (x :: y :: l))).
      now rewrite IH.
Qed.

Lemma segments_inj (s t : string) : segments s = segments t -> s = t.
Proof.
  intros H. rewrite <- (join_segments s), <- (join_segments t). now rewrite H.
Qed.

(** No segment of a path holds a slash. *)
Lemma segments_slash_free (s : string) :
  Forall (fun x => slash_free x = true) (segments s).
Proof.
  induction s as [|c s IH]; simpl; [repeat constructor|].
  destruct (is_slash c) eqn:Hc.
  - constructor; [reflexivity|exact IH].
  - destruct (segments s) as [|x l]; [repeat constructor; simpl; now rewrite Hc|].
    inversion IH as [|? ? Hx Hl]; subst.
    constructor; [simpl; now rewrite Hc, Hx|exact Hl].
Qed.

(** A string without a slash is its own single segment. *)
Lemma segments_slash_free_one (x : string) :
  slash_free x = true -> segments x = [x].
Proof.
  induction x as [|c x IH]; simpl; [reflexivity|].
  destruct (is_slash c); simpl; [discriminate|].
  intros H. now rewrite (IH H).
Qed.

(** What a match of a template's first segment says about the path's. *)
Lemma match_segments_nil (l : list string) params :
  match_segments [] l = Some params -> l = [] /\ params = [].
Proof. destruct l; simpl; [intros [= <-]; now split|discriminate]. Qed.

Lemma match_segments_literal (t : string) tpl (l : list string) params :
  param_name t = None -> is_last tpl = false ->
  match_segments (t :: tpl) l = Some params ->
  exists l', l = t :: l' /\ match_segments tpl l' = Some params.
Proof.
  intros Ht Hl. destruct l as [|x l]; simpl; [discriminate|].
  rewrite Ht, Hl, andb_false_l, orb_false_r.
  destruct (String.eqb t x) eqn:E; [|discriminate].
  apply String.eqb_eq in E as ->. intros H. now exists l.
Qed.

(** The last literal segment of a template is matched by itself and by
    itself with a closing newline. *)
Lemma match_segments_last (t : string) (l : list string) params :
  param_name t = None ->
  match_segments [t] l = Some params ->
  (l = [t] \/ l = [t ++ newline]) /\ params = [].
Proof.
  intros Ht. destruct l as [|x l]; simpl; [discriminate|]. rewrite Ht.
  destruct (String.eqb t x) eqn:E1; simpl.
  - apply String.eqb_eq in E1 as ->. intros H.
    apply match_segments_nil in H as [-> ->]. split; [now left|reflexivity].
  - destruct (String.eqb (t ++ newline) x) eqn:E2; [|discriminate].
    apply String.eqb_eq in E2 as <-. intros H.
    apply match_segments_nil in H as [-> ->]. split; [now right|reflexivity].
Qed.

Lemma match_segments_param (t nm : string) tpl (l : list string) params :
  param_name t = Some nm ->
  match_segments (t :: tpl) l = Some params ->
  exists x l' params',
    l = x :: l' /\ x <> "" /\ params = (nm, x) :: params'
    /\ match_segments tpl l' = Some params'.
Proof.
  intros Ht. destruct l as [|x l]; simpl; [discriminate|]. rewrite Ht.
  destruct (String.eqb x "") eqn:E; [discriminate|].
  apply String.eqb_neq in E.
  destruct (match_segments tpl l) as [ps|] eqn:M; simpl; [|discriminate].
  intros [= <-]. now exists x, l, ps.
Qed.

Section Resolution.
Context {S : Type}.

(** The route that a resolution finds matches the request in full. *)
Lemma first_full_matches (rs : list (route S)) m p r params :
  first_full rs m p = Some (r, params) ->
  In r rs /\ matches r m p = FULL params.
Proof.
  induction rs as [|r0 rs IH]; simpl; [discriminate|].
  destruct (matches r0 m p) eqn:E.
  - intros H. destruct (IH H). split; [now right|assumption].
  - intros H. destruct (IH H). split; [now right|assumption].
  - intros [= <- <-]. split; [now left|assumption].
Qed.

Lemma resolve_found (rs : list (route S)) m p r params :
  resolve rs m p = Found r params ->
  In r rs /\ matches r m p = FULL params.
Proof.
  unfold resolve. destruct (first_full rs m p) as [[r0 ps]|] eqn:E.
  - intros [= <- <-]. eapply first_full_matches, E.
  - destruct (first_partial rs m p); [discriminate|].
    destruct (_ && _); discriminate.
Qed.

Lemma matches_full (r : route S) m p params :
  matches r m p = FULL params ->
  match_path (path r) p = Some params
  /\ existsb (method_eqb m) (methods r) = true.
Proof.
  unfold matches. destruct (match_path (path r) p) as [ps|]; [|discriminate].
  destruct (existsb _ _); [|discriminate]. intros [= <-]. now split.
Qed.

End Resolution.

(** The two templates of the program that matter below, inverted. *)
Lemma match_health (p : string) params :
  match_path "/health" p = Some params ->
  p = "/health" \/ p = "/health" ++ newline.
Proof.
  unfold match_path. intros H.
  change (segments "/health") with [""; "health"] in H.
  apply match_segments_literal in H as (l1 & E1 & H); [|reflexivity..].
  apply match_segments_last in H; [|reflexivity].
  destruct H as [[->| ->] _].
  - left. now apply segments_inj.
  - right. now apply segments_inj.
Qed.

Lemma match_collection (p : string) params :
  match_path "/api/users/" p = Some params ->
  (p = "/api/users/" \/ p = "/api/users/" ++ newline) /\ params = [].
Proof.
  unfold match_path. intros H.
  change (segments "/api/users/") with [""; "api"; "users"; ""] in H.
  apply match_segments_literal in H as (l1 & E1 & H); [|reflexivity..].
  apply match_segments_literal in H as (l2 & E2 & H); [|reflexivity..].
  apply match_segments_literal in H as (l3 & E3 & H); [|reflexivity..].
  apply match_segments_last in H; [|reflexivity].
  destruct H as [[->| ->] ->].
  - subst. split; [left|reflexivity]. now apply segments_inj.
  - subst. split; [right|reflexivity]. now apply segments_inj.
Qed.

Lemma match_item (p : string) params :
  match_path "/api/users/{user_id}" p = Some params ->
  exists x, p = "/api/users/" ++ x /\ x <> "" /\ slash_free x = true
            /\ params = [("user_id", x)].
Proof.
  unfold match_path. intros H.
  change (segments "/api/users/{user_id}")
    with [""; "api"; "users"; "{user_id}"] in *.
  apply match_segments_literal in H as (l1 & E1 & H); [|reflexivity..].
  apply match_segments_literal in H as (l2 & E2 & H); [|reflexivity..].
  apply match_segments_literal in H as (l3 & E3 & H); [|reflexivity..].
  apply (match_segments_param _ "user_id") in H
    as (x & l4 & ps & E4 & Hx & -> & H); [|reflexivity].
  apply match_segments_nil in H as [-> ->]. subst.
  exists x. pose proof (segments_slash_free p) as Hp. rewrite E1 in Hp.
  assert (Hfree : slash_free x = true).
  { inversion Hp as [|? ? _ Hp1]; inversion Hp1 as [|? ? _ Hp2];
      inversion Hp2 as [|? ? _ Hp3]; now inversion Hp3. }
  repeat split; try assumption.
  rewrite <- (join_segments p), E1. reflexivity.
Qed.

(** The path of an item, cut into its segments. *)
Lemma segments_item (x : string) :
  slash_free x = true -> segments ("/api/users/" ++ x) = [""; "api"; "users"; x].
Proof.
  intros H.
  change ("/api/users/" ++ x) with
    (String "/" (String "a" (String "p" (String "i" (String "/"
      (String "u" (String "s" (String "e" (String "r" (String "s"
        (String "/" x))))))))))).
  cbn [segments is_slash Ascii.eqb Bool.eqb].
  now rewrite (segments_slash_free_one x H).
Qed.

(** ** main.py: the health check's route *)

Section Health.
Context {S : Type}.

Local Abbreviation app := (@main.app S).

(** The answer of the installed CORS middleware to a preflight. *)
Lemma wildcard_preflight (origin requested : string) (asked : option string) :
  cors.preflight_response (cors.init (CORSMiddleware ["*"] true ["*"] ["*"]))
    origin requested asked
  = if cors.mem requested cors.ALL_METHODS
    then PlainTextResponse 200 "OK"
    else PlainTextResponse 400 "Disallowed CORS method".
Proof.
  unfold cors.preflight_response, cors.failures, cors.allows_method.
  cbn [cors.init cors.is_allowed_origin cors.allow_all_origins cors.mem
       existsb String.eqb Ascii.eqb Bool.eqb orb cors.allow_methods
       cors.allows_headers cors.allow_all_headers].
  fold (cors.mem requested cors.ALL_METHODS).
  destruct (cors.mem requested cors.ALL_METHODS); destruct asked; reflexivity.
Qed.

(** The application answers a preflight through its middleware and any
    other request through its router. *)
Lemma handle_app (req : request) (s : S) :
  cors.handle app req s
  = match cors.preflight req with
    | Some (origin, requested) =>
        (if cors.mem requested cors.ALL_METHODS
         then PlainTextResponse 200 "OK"
         else PlainTextResponse 400 "Disallowed CORS method", s)
    | None => serve app req s
    end.
Proof.
  unfold cors.handle. cbn [user_middleware main.app app_get add_api_route
    add_middleware new_FastAPI cors.stack].
  unfold cors.call. destruct (cors.preflight req) as [[origin requested]|];
    [|reflexivity].
  now rewrite wildcard_preflight.
Qed.

(** X1: the router runs [health_check] exactly for a GET of the path
    [/health], or of [/health] closed by one newline, which the template's
    pattern also matches: no other path, with or without trailing slash,
    and no other method runs it. *)
Theorem health_check_reached_only_by_GET_health (m : method) (p : string) :
  reaches app m p "health_check"
  = method_eqb m GET
    && (String.eqb p "/health" || String.eqb p ("/health" ++ newline)).
Proof.
  destruct (String.eqb p "/health") eqn:E1.
  { apply String.eqb_eq in E1 as ->. destruct m; reflexivity. }
  destruct (String.eqb p ("/health" ++ newline)) eqn:E2.
  { apply String.eqb_eq in E2 as ->. destruct m; reflexivity. }
  rewrite andb_false_r.
  destruct (reaches app m p "health_check") eqn:R; [|reflexivity].
  unfold reaches in R.
  destruct (resolve (routes app) m p) as [r ps| | |] eqn:Res;
    try discriminate.
  apply resolve_found in Res as [Hin Hm].
  apply matches_full in Hm as [Hp _].
  simpl in Hin.
  destruct Hin as [<-|[<-|[<-|[<-|[<-|[]]]]]]; simpl in R;
    try discriminate.
  apply match_health in Hp as [-> | ->].
  - rewrite String.eqb_refl in E1. discriminate.
  - rewrite String.eqb_refl in E2. discriminate.
Qed.

(** X2: on [/health] the application serves GET only: a CORS preflight
    (OPTIONS with an origin and a requested method) is answered by the
    middleware, 200 "OK" for a requested method among the seven standard
    ones and 400 otherwise; any other request gets the health object with
    200 on GET and 405 "Method Not Allowed" on every other method. No
    answer touches the state. *)
Theorem health_allows_only_GET
  (m : method) (headers : list (string * string)) (json : option value) (s : S) :
  cors.handle app (Request m "/health" headers json) s
  = match cors.preflight (Request m "/health" headers json) with
    | Some (origin, requested) =>
        (if cors.mem requested cors.ALL_METHODS
         then PlainTextResponse 200 "OK"
         else PlainTextResponse 400 "Disallowed CORS method", s)
    | None =>
        (if method_eqb m GET
         then JSONResponse 200
                (Dict [("status", Str "ok"); ("version", Str "1.0.0")])
         else JSONResponse 405 (Dict [("detail", Str "Method Not Allowed")]),
         s)
    end.
Proof.
  rewrite handle_app.
  destruct (cors.preflight _) as [[origin requested]|]; [reflexivity|].
  destruct m; reflexivity.
Qed.

(** X13: a request for any path under [/api/users] gets no handler: a
    CORS preflight is answered by the middleware as for any path, and
    every other request 404 "Not Found", with the state left as it was. *)
Theorem users_paths_are_not_found
  (m : method) (rest : string) (headers : list (string * string))
  (json : option value) (s : S) :
  cors.handle app (Request m ("/api/users" ++ rest) headers json) s
  = match cors.preflight (Request m ("/api/users" ++ rest) headers json) with
    | Some (origin, requested) =>
        (if cors.mem requested cors.ALL_METHODS
         then PlainTextResponse 200 "OK"
         else PlainTextResponse 400 "Disallowed CORS method", s)
    | None => (JSONResponse 404 (Dict [("detail", Str "Not Found")]), s)
    end.
Proof.
  rewrite handle_app.
  destruct (cors.preflight _) as [[origin requested]|]; [reflexivity|].
  unfold serve. cbn [req_method req_path].
  now rewrite app_not_found.
Qed.

End Health.

(** ** controllers/user_controller.py: the declared routes *)

Section Declared.
Context {S : Type} `{models : models_user}.

Local Abbreviation declared := (router_routes (@user_controller.router S models)).

Lemma declared_paths :
  map path declared
  = ["/api/users/"; "/api/users/{user_id}"; "/api/users/";
     "/api/users/{user_id}"; "/api/users/{user_id}"].
Proof. reflexivity. Qed.

(** What a full match of a declared route says about the path. *)
Lemma declared_match r m p params :
  In r declared -> matches r m p = FULL params ->
  ((p = "/api/users/" \/ p = "/api/users/" ++ newline) /\ params = [])
  \/ (exists x, p = "/api/users/" ++ x /\ x <> "" /\ slash_free x = true
                /\ params = [("user_id", x)]).
Proof.
  intros Hin Hm. apply matches_full in Hm as [Hp _].
  simpl in Hin.
  destruct Hin as [<-|[<-|[<-|[<-|[<-|[]]]]]]; simpl path in Hp.
  - left. now apply match_collection.
  - right. now apply match_item.
  - left. now apply match_collection.
  - right. now apply match_item.
  - right. now apply match_item.
Qed.

Lemma item_matches_item (x : string) :
  slash_free x = true -> x <> "" ->
  match_path "/api/users/{user_id}" ("/api/users/" ++ x)
  = Some [("user_id", x)].
Proof.
  intros Hf Hx. unfold match_path. rewrite (segments_item x Hf).
  destruct x as [|c x]; [contradiction|]. reflexivity.
Qed.

Lemma item_misses_collection (x : string) :
  slash_free x = true -> x <> "" -> x <> newline ->
  match_path "/api/users/" ("/api/users/" ++ x) = None.
Proof.
  intros Hf Hx Hn. unfold match_path. rewrite (segments_item x Hf).
  change (segments "/api/users/") with [""; "api"; "users"; ""].
  cbn [match_segments param_name is_last].
  rewrite !String.eqb_refl. cbn [orb andb].
  assert (E1 : String.eqb "" x = false) by now apply String.eqb_neq.
  assert (E2 : String.eqb ("" ++ newline) x = false)
    by (apply String.eqb_neq; intros E; now apply Hn).
  now rewrite E1, E2.
Qed.

(** X3: for every identifier that is one non-empty path segment, other
    than the lone newline that the collection's pattern takes, the path
    [/api/users/<id>] goes to [get_user] on GET, to [update_user] on PUT
    and to [delete_user] on DELETE, each with [user_id] bound to the
    identifier as written; every other method is refused. *)
Theorem item_path_resolution (m : method) (x : string) :
  slash_free x = true -> x <> "" -> x <> newline ->
  verdict_of (resolve declared m ("/api/users/" ++ x))
  = match m with
    | GET => Calls "get_user" [("user_id", x)]
    | PUT => Calls "update_user" [("user_id", x)]
    | DELETE => Calls "delete_user" [("user_id", x)]
    | _ => Refuses
    end.
Proof.
  intros Hf Hx Hn.
  pose proof (item_matches_item x Hf Hx) as Hi.
  pose proof (item_misses_collection x Hf Hx Hn) as Hc.
  unfold resolve. cbn [router_routes user_controller.router router_add
    new_APIRouter app prefix first_full first_partial].
  unfold matches. cbn [path methods].
  change ("/api/users" ++ "/{user_id}") with "/api/users/{user_id}".
  change ("/api/users" ++ "/") with "/api/users/".
  rewrite Hi, Hc. destruct m; reflexivity.
Qed.

(** X4: on the collection path [/api/users/] GET goes to [get_all_users]
    and POST to [create_user], without parameters, and every other method
    is refused; the same path without its trailing slash is not served
    but redirected to it, whatever the method. *)
Theorem collection_path_resolution (m : method) :
  verdict_of (resolve declared m "/api/users/")
  = match m with
    | GET => Calls "get_all_users" []
    | POST => Calls "create_user" []
    | _ => Refuses
    end
  /\ verdict_of (resolve declared m "/api/users") = Redirects "/api/users/".
Proof. destruct m; split; reflexivity. Qed.

(** X5: routing never hands a handler an empty [user_id] or one with a
    slash in it: whenever a request resolves to a declared route, the
    parameters are either none or exactly [user_id], bound to a non-empty
    slash-free string that is the last segment of the path. *)
Theorem routed_user_id_is_a_segment (m : method) (p : string) r params x :
  resolve declared m p = Found r params ->
  path_param "user_id" params = Some x ->
  x <> "" /\ slash_free x = true /\ p = "/api/users/" ++ x.
Proof.
  intros Hres Hx. apply resolve_found in Hres as [Hin Hm].
  destruct (declared_match _ _ _ _ Hin Hm) as [[_ ->]|(y & -> & Hy & Hf & ->)].
  - discriminate.
  - simpl in Hx. injection Hx as <-. now repeat split.
Qed.

(** X6: every path that a declared route serves lies under the router's
    prefix [/api/users/]. *)
Theorem declared_routes_serve_only_the_prefix (m : method) (p : string) r params :
  resolve declared m p = Found r params ->
  String.prefix "/api/users/" p = true.
Proof.
  intros Hres. apply resolve_found in Hres as [Hin Hm].
  destruct (declared_match _ _ _ _ Hin Hm)
    as [[[-> | ->] _]|(y & -> & _)]; [reflexivity..|].
  change ("/api/users/" ++ y) with
    (String "/" (String "a" (String "p" (String "i" (String "/"
      (String "u" (String "s" (String "e" (String "r" (String "s"
        (String "/" y))))))))))).
  destruct y; reflexivity.
Qed.

End Declared.

Lemma item_path_resolution_witness :
  slash_free "42" = true /\ "42" <> "" /\ "42" <> newline
  /\ verdict_of (resolve (router_routes
                            (@user_controller.router unit sample.models))
                         GET ("/api/users/" ++ "42"))
     = Calls "get_user" [("user_id", "42")].
Proof.
  split; [reflexivity|]. split; [discriminate|]. split; [discriminate|].
  apply (item_path_resolution (S:=unit) (models:=sample.models) GET "42");
    [reflexivity|discriminate|discriminate].
Defined.

Lemma routed_user_id_is_a_segment_witness :
  "42" <> "" /\ slash_free "42" = true
  /\ "/api/users/42" = "/api/users/" ++ "42".
Proof.
  eapply (routed_user_id_is_a_segment (S:=unit) (models:=sample.models)
            PUT "/api/users/42" _ [("user_id", "42")] "42");
    reflexivity.
Defined.

Lemma declared_routes_serve_only_the_prefix_witness :
  String.prefix "/api/users/" "/api/users/" = true.
Proof.
  eapply (declared_routes_serve_only_the_prefix (S:=unit)
            (models:=sample.models) POST "/api/users/" _ []);
    reflexivity.
Defined.

Section Answers.
Context {S : Type} `{models : models_user}.

Local Abbreviation declared := (router_routes (@user_controller.router S models)).

(** X7: every GET that the declared routes accept is answered without
    touching the state: the collection path, as written or closed by one
    newline, with 200 and the empty list; every other accepted path, that
    is every item, with 404 and detail "User not found". *)
Theorem accepted_GET_answers
  (p : string) r params (json : option value) (s : S) :
  resolve declared GET p = Found r params ->
  settle (request_handler r params json) s
  = (if String.eqb p "/api/users/" || String.eqb p ("/api/users/" ++ newline)
     then JSONResponse 200 (List [])
     else JSONResponse 404 (Dict [("detail", Str "User not found")]),
     s).
Proof.
  intros Hres.
  destruct (String.eqb p "/api/users/") eqn:E1.
  { apply String.eqb_eq in E1 as ->.
    cbv in Hres. injection Hres as <- <-. reflexivity. }
  destruct (String.eqb p ("/api/users/" ++ newline)) eqn:E2.
  { apply String.eqb_eq in E2 as ->.
    cbv in Hres. injection Hres as <- <-. reflexivity. }
  apply resolve_found in Hres as [Hin Hm].
  apply matches_full in Hm as [Hp Hmeth].
  simpl in Hin.
  destruct Hin as [<-|[<-|[<-|[<-|[<-|[]]]]]];
    simpl methods in Hmeth; simpl path in Hp; try discriminate.
  - apply match_collection in Hp as [[-> | ->] _].
    + rewrite String.eqb_refl in E1. discriminate.
    + rewrite String.eqb_refl in E2. discriminate.
  - apply match_item in Hp as (x & -> & Hx & _ & ->). reflexivity.
Qed.

(** X8: every DELETE that the declared routes accept is answered 204 with
    no body, whatever identifier and body it carries, and leaves the state
    as it was: unlike POST and PUT, the missing return is no error here. *)
Theorem accepted_DELETE_answers
  (p : string) r params (json : option value) (s : S) :
  resolve declared DELETE p = Found r params ->
  settle (request_handler r params json) s = (EmptyResponse 204, s).
Proof.
  intros Hres. apply resolve_found in Hres as [Hin Hm].
  apply matches_full in Hm as [Hp Hmeth].
  simpl in Hin.
  destruct Hin as [<-|[<-|[<-|[<-|[<-|[]]]]]];
    simpl methods in Hmeth; simpl path in Hp; try discriminate.
  apply match_item in Hp as (x & -> & Hx & _ & ->). reflexivity.
Qed.

End Answers.

Lemma accepted_GET_answers_witness :
  exists r,
    resolve (router_routes (@user_controller.router unit sample.models))
            GET "/api/users/no such id"
    = Found r [("user_id", "no such id")]
    /\ settle (request_handler r [("user_id", "no such id")] None) tt
       = (JSONResponse 404 (Dict [("detail", Str "User not found")]), tt).
Proof.
  eexists. split; [reflexivity|].
  apply (accepted_GET_answers (S:=unit) (models:=sample.models)
           "/api/users/no such id" _ [("user_id", "no such id")] None tt).
  reflexivity.
Defined.

Lemma accepted_DELETE_answers_witness :
  exists r,
    resolve (router_routes (@user_controller.router unit sample.models))
            DELETE "/api/users/7"
    = Found r [("user_id", "7")]
    /\ settle (request_handler r [("user_id", "7")] (Some (Dict []))) tt
       = (EmptyResponse 204, tt).
Proof.
  eexists. split; [reflexivity|].
  apply (accepted_DELETE_answers (S:=unit) (models:=sample.models)
           "/api/users/7" _ [("user_id", "7")] (Some (Dict [])) tt).
  reflexivity.
Defined.

(** ** services/user_service.py: sequences of calls *)

Section Sequences.
Context {S Self UserCreate UserUpdate : Type}.

Lemma perform_all_returns (self : Self) (cs : list (@call UserCreate UserUpdate))
  (s : S) :
  perform_all self cs s = (Returned tt, s).
Proof.
  induction cs as [|c cs IH]; [reflexivity|].
  simpl. unfold bind. destruct c; simpl; exact IH.
Qed.

(** X9: nothing that is created is ever found: after any sequence of
    calls on the service, creations included, [get_by_id] still returns
    [None] for every identifier, [get_all] the empty list and [delete]
    [False], and the state is as it was before the sequence. *)
Theorem nothing_created_is_ever_found
  (self : Self) (cs : list (@call UserCreate UserUpdate)) (user_id : string)
  (s : S) :
  bind (perform_all self cs) (fun _ => UserService.get_by_id self user_id) s
    = (Returned None_, s)
  /\ bind (perform_all self cs) (fun _ => UserService.get_all self) s
     = (Returned (List []), s)
  /\ bind (perform_all self cs) (fun _ => UserService.delete self user_id) s
     = (Returned (Bool false), s).
Proof.
  unfold bind. rewrite perform_all_returns. repeat split.
Qed.

End Sequences.

(** ** main.py: starting the server *)

(** X10: when the module is imported rather than run, that is under any
    name but [__main__], nothing is started and nothing is raised, even
    with a [PORT] that is no number. *)
Theorem import_starts_nothing
  (module_name : string) (dotenv environ : gmap string string) :
  module_name <> "__main__" ->
  main.run_module module_name dotenv environ = Returned None.
Proof.
  intros H. unfold main.run_module, main.start.
  apply String.eqb_neq in H. now rewrite H.
Qed.

Lemma import_starts_nothing_witness :
  "main" <> "__main__"
  /\ main.run_module "main" ∅ {[ "PORT" := "not a port" ]} = Returned None.
Proof.
  split; [discriminate|].
  apply (import_starts_nothing "main" ∅ {[ "PORT" := "not a port" ]}).
  discriminate.
Defined.

(** X11: reading the port, the one step of the start-up block before
    the call of [uvicorn.run], fails in one way only: with [PORT] set to a
    text that [int] refuses it raises the [ValueError] for that text, and
    then [uvicorn.run] is not called; with [PORT] unset it cannot fail, and
    it never raises a [TypeError]. *)
Theorem port_fails_only_on_PORT (environ : gmap string string) (e : exn) :
  main.port environ = Raised e ->
  exists s, environ !! "PORT" = Some s
            /\ builtins.int_literal s = None
            /\ e = ValueError s
            /\ main.start "__main__" environ = Raised (ValueError s).
Proof.
  unfold main.start, main.port, os.getenv.
  destruct (environ !! "PORT") as [s|]; simpl; [|discriminate].
  destruct (builtins.int_literal s) eqn:L; [discriminate|].
  intros [= <-]. now exists s.
Qed.

Lemma port_fails_only_on_PORT_witness :
  exists s, ({[ "PORT" := "80 80" ]} : gmap string string) !! "PORT" = Some s
            /\ builtins.int_literal s = None
            /\ ValueError "80 80" = ValueError s
            /\ main.start "__main__" {[ "PORT" := "80 80" ]}
               = Raised (ValueError s).
Proof.
  apply (port_fails_only_on_PORT {[ "PORT" := "80 80" ]} (ValueError "80 80")).
  reflexivity.
Defined.


(** ** main.py: the application as configured *)

Section Configured.
Context {S : Type}.

(** X14: the application as main.py configures it, middleware and
    router, never fails and keeps no state: every request, whatever its
    method, path, headers and body, is answered 200, 307, 400, 404 or 405,
    never 422 or 500, and the state after the request is the state before
    it. *)
Theorem configured_app_never_fails (req : request) (s : S) :
  snd (cors.handle (@main.app S) req s) = s
  /\ In (response_status (fst (cors.handle (@main.app S) req s)))
        [200; 307; 400; 404; 405]%Z.
Proof.
  rewrite handle_app.
  destruct (cors.preflight req) as [[origin requested]|].
  { destruct (cors.mem requested cors.ALL_METHODS);
      (split; [reflexivity|simpl; tauto]). }
  unfold serve.
  destruct (resolve (routes main.app) (req_method req) (req_path req))
    as [r ps| | |] eqn:Res.
  - apply resolve_found in Res as [Hin _]. simpl in Hin.
    destruct Hin as [<-|[<-|[<-|[<-|[<-|[]]]]]];
      (split; [reflexivity|simpl; tauto]).
  - split; [reflexivity|simpl; tauto].
  - split; [reflexivity|simpl; tauto].
  - split; [reflexivity|simpl; tauto].
Qed.

End Configured.
